(** * The EventMesh commander of the event publisher proxy

    A shallow embedding of [pkg/commander/eventmesh/eventmesh.go]: the
    [Commander] struct, [NewCommander], [Init], [Start], [Stop] and
    [namedLogger], followed by the properties of its lifecycle.

    The commander only wires collaborators together.  Every collaborator
    (receiver, OAuth client, sender, listers, informer factory, cleaners,
    builder, handler, logger) lives in another package; here each call to
    one of them is an [Event] carrying the arguments the source passes, the
    value it yields is the symbolic object built from those arguments, and
    how the call ends (it returns, panics, terminates the process or never
    comes back) is read from a [World].  Theorems quantify over every
    [World]. *)

From Stdlib Require Import List String ZArith Bool Arith Lia.
Import ListNotations.
Open Scope string_scope.

(** ** Constants (lines 33-36) *)

Definition backend : string := "beb".
Definition commanderName : string := backend ++ "-commander".

(** ** Data *)

(** A Go [error] is represented by its message; [None] is the nil error. *)
Definition error : Type := string.

(** [env.EventMeshConfig].  The struct is declared in [pkg/env]; the fields
    below are the ones [eventmesh.go] reads. *)
Record EventMeshConfig : Type := mkEventMeshConfig {
  Port : Z;
  EventMeshPublishURL : string;
  EventMeshNamespace : string;
  EventTypePrefix : string;
  RequestTimeout : Z;
  ApplicationCRDEnabled : bool
}.

(** [new(env.EventMeshConfig)]: every field holds the zero value of its type. *)
Definition zeroConfig : EventMeshConfig :=
  mkEventMeshConfig 0 "" "" "" 0 false.

(** Pointers to objects the commander never looks into: [None] is nil. *)
Definition LoggerPtr : Type := option nat.
Definition CollectorPtr : Type := option nat.
Definition OptionsPtr : Type := option nat.

(** A [context.Context].  [signals.NewContext()] yields the process-wide
    shutdown context, [context.WithCancel] a numbered child of its parent. *)
Inductive Context : Type :=
| SignalContext
| CancelContext (id : nat) (parent : Context).

(** A [context.CancelFunc] is the closure cancelling one numbered context. *)
Inductive CancelFunc : Type :=
| CancelOf (id : nat).

(** The [Commander] struct (lines 39-45).  [cancel] is a func value,
    [None] being the nil func.  [envCfg] is a pointer that [NewCommander]
    sets to a fresh object and nothing reseats, so the field holds the
    object it points to. *)
Record Commander : Type := mkCommander {
  cancel : option CancelFunc;
  envCfg : EventMeshConfig;
  logger : LoggerPtr;
  metricsCollector : CollectorPtr;
  opts : OptionsPtr
}.

(** *** Symbolic collaborators: each is the record of what it was built from *)

Record SugaredLogger : Type := mkSugaredLogger {
  sl_base : LoggerPtr;
  sl_name : string;
  sl_fields : list (string * string)
}.

Record Receiver : Type := mkReceiver { rcv_port : Z }.

Record Client : Type := mkClient {
  cl_ctx : Context;
  cl_cfg : EventMeshConfig
}.

Record Sender : Type := mkSender {
  snd_url : string;
  snd_client : Client;
  snd_logger : LoggerPtr
}.

Inductive K8sConfig : Type := ClusterConfig.

Record DynamicClient : Type := mkDynamicClient { dyn_cfg : K8sConfig }.

Record Lister : Type := mkLister {
  lst_ctx : Context;
  lst_client : DynamicClient
}.

Record Transformer : Type := mkTransformer {
  tr_namespace : string;
  tr_prefix : string;
  tr_lister : option Lister
}.

Record InfFactory : Type := mkInfFactory { inf_cfg : K8sConfig }.

Inductive GVR : Type := SubscriptionGVR.

Record SubLister : Type := mkSubLister {
  sub_factory : InfFactory;
  sub_resource : GVR
}.

(** [subscribed.Processor], built by a struct literal at lines 106-111. *)
Record Processor : Type := mkProcessor {
  SubscriptionLister : SubLister;
  Prefix : string;
  Namespace : string;
  Logger : LoggerPtr
}.

Record Cleaner : Type := mkCleaner {
  cln_prefix : string;
  cln_lister : option Lister;
  cln_logger : LoggerPtr
}.

Record EventMeshCleaner : Type := mkEventMeshCleaner { emc_logger : LoggerPtr }.

Record Builder : Type := mkBuilder {
  bld_prefix : string;
  bld_namespace : string;
  bld_cleaner : EventMeshCleaner;
  bld_lister : option Lister;
  bld_logger : LoggerPtr
}.

Inductive Checker : Type := HealthChecker.

(** [env.EventMeshBackend], a constant of [pkg/env] passed on unchanged. *)
Inductive ActiveBackend : Type := EventMeshBackend.

(** The thirteen arguments of [handler.New] (lines 128-141), in order. *)
Record Handler : Type := mkHandler {
  h_receiver : Receiver;
  h_sender : Sender;
  h_checker : Checker;
  h_timeout : Z;
  h_transformer : Transformer;
  h_opts : OptionsPtr;
  h_processor : Processor;
  h_logger : LoggerPtr;
  h_collector : CollectorPtr;
  h_cleaner : Cleaner;
  h_builder : Builder;
  h_prefix : string;
  h_backend : ActiveBackend
}.

(** ** Events: the calls [Start] and [Stop] make, with their arguments *)

Inductive Event : Type :=
| ev_namedLogger (l : LoggerPtr)
| ev_Infow (msg : string) (configuration : EventMeshConfig) (startup : OptionsPtr)
| ev_Info (msg : string)
| ev_NewHTTPMessageReceiver (port : Z)
| ev_signals_NewContext
| ev_oauth_NewClient (ctx : Context) (cfg : EventMeshConfig)
| ev_CloseIdleConnections (c : Client)
| ev_NewSender (url : string) (c : Client) (l : LoggerPtr)
| ev_GetConfigOrDie
| ev_NewForConfigOrDie (k : K8sConfig)
| ev_application_NewLister (ctx : Context) (d : DynamicClient)
| ev_legacy_NewTransformer (ns prefix : string) (l : option Lister)
| ev_GenerateSubscriptionInfFactory (k : K8sConfig)
| ev_ForResource_Lister (f : InfFactory) (r : GVR)
| ev_WaitForCacheSyncOrDie (ctx : Context) (f : InfFactory) (l : LoggerPtr)
| ev_eventtype_NewCleaner (prefix : string) (l : option Lister) (lg : LoggerPtr)
| ev_NewEventMeshCleaner (lg : LoggerPtr)
| ev_NewEventMeshBuilder (prefix ns : string) (c : EventMeshCleaner)
    (l : option Lister) (lg : LoggerPtr)
| ev_health_NewChecker
| ev_handler_New (h : Handler)
| ev_handler_Start (h : Handler) (ctx : Context)
| ev_ctx_done (id : nat).

(** How a call into a collaborator ends. *)
Inductive Behaviour : Type :=
| Returns
| Panics   (* a Go panic *)
| Exits    (* os.Exit, as the OrDie and Fatal helpers do: the process is over *)
| Blocks.  (* the call never comes back *)

(** Everything outside [eventmesh.go]. *)
Record World : Type := mkWorld {
  (** how each call into a collaborator ends *)
  behave : Event -> Behaviour;
  (** the error the handler's serve call yields when it returns *)
  serveErr : option error;
  (** [envconfig.Process prefix spec]: the struct as the loader leaves it
      and the loader's error *)
  envconfig_Process : string -> EventMeshConfig -> EventMeshConfig * option error
}.

(** ** State and the monad of the embedding *)

(** The commander object, the supply of context numbers and the contexts
    whose [Done] channel is closed. *)
Record State : Type := mkState {
  cmd : Commander;
  nextCtx : nat;
  cancelled : list nat
}.

Inductive Res (A : Type) : Type :=
| Val (a : A)
| Panic
| Exit
| Block.
Arguments Val {A} a.
Arguments Panic {A}.
Arguments Exit {A}.
Arguments Block {A}.

(** One run: how it ended, the state it left, the events it made in order. *)
Record Run (A : Type) : Type := mkRun {
  res : Res A;
  post : State;
  emitted : list Event
}.
Arguments mkRun {A} res post emitted.
Arguments res {A} r.
Arguments post {A} r.
Arguments emitted {A} r.

Definition M (A : Type) : Type := State -> Run A.

Definition ret {A} (a : A) : M A := fun s => mkRun (Val a) s [].

(** [t] happened, then the run [r]. *)
Definition after {A} (t : list Event) (r : Run A) : Run A :=
  match r with
  | mkRun x s t' => mkRun x s (t ++ t')
  end.

Definition bind {A B} (m : M A) (f : A -> M B) : M B := fun s =>
  match m s with
  | mkRun (Val a) s1 t1 => after t1 (f a s1)
  | mkRun Panic s1 t1 => mkRun Panic s1 t1
  | mkRun Exit s1 t1 => mkRun Exit s1 t1
  | mkRun Block s1 t1 => mkRun Block s1 t1
  end.

Declare Scope go_scope.
Delimit Scope go_scope with go.
Notation "x <- m ;; k" := (bind m (fun x => k))
  (at level 61, m at next level, right associativity) : go_scope.
Notation "m ;; k" := (bind m (fun _ => k))
  (at level 61, right associativity) : go_scope.
Open Scope go_scope.

(** Read a field of the commander, [c.f]. *)
Definition field {A} (f : Commander -> A) : M A := fun s =>
  mkRun (Val (f (cmd s))) s [].

(** Read a field of the config object, [c.envCfg.f]. *)
Definition cfgField {A} (f : EventMeshConfig -> A) : M A :=
  field (fun c => f (envCfg c)).

(** [defer d] around the rest of the function body: [d] runs when the body
    returns and when it panics; it does not run when the process exits or
    the body never comes back. *)
Definition defer {A} (d : M unit) (body : M A) : M A := fun s =>
  match body s with
  | mkRun (Val a) s1 t1 =>
      after t1 (match d s1 with
                | mkRun (Val _) s2 t2 => mkRun (Val a) s2 t2
                | mkRun Panic s2 t2 => mkRun Panic s2 t2
                | mkRun Exit s2 t2 => mkRun Exit s2 t2
                | mkRun Block s2 t2 => mkRun Block s2 t2
                end)
  | mkRun Panic s1 t1 =>
      after t1 (match d s1 with
                | mkRun (Val _) s2 t2 => mkRun Panic s2 t2
                | mkRun Panic s2 t2 => mkRun Panic s2 t2
                | mkRun Exit s2 t2 => mkRun Exit s2 t2
                | mkRun Block s2 t2 => mkRun Block s2 t2
                end)
  | mkRun Exit s1 t1 => mkRun Exit s1 t1
  | mkRun Block s1 t1 => mkRun Block s1 t1
  end.

(** [xerrors.Errorf "<what> %s : %v" name err]. *)
Definition Errorf (what name : string) (err : error) : error :=
  what ++ name ++ " : " ++ err.

(** [context.WithCancel parent]: a fresh child context and its cancel func. *)
Definition WithCancel (parent : Context) : M (Context * CancelFunc) := fun s =>
  let id := nextCtx s in
  mkRun (Val (CancelContext id parent, CancelOf id))
        (mkState (cmd s) (S id) (cancelled s)) [].

(** Calling a [context.CancelFunc]: the first call closes the context's
    [Done] channel, later calls do nothing. *)
Definition callCancel (f : CancelFunc) : M unit := fun s =>
  match f with
  | CancelOf id =>
      if existsb (Nat.eqb id) (cancelled s)
      then mkRun (Val tt) s []
      else mkRun (Val tt) (mkState (cmd s) (nextCtx s) (id :: cancelled s))
                 [ev_ctx_done id]
  end.

(** The assignment [c.cancel = f]. *)
Definition setCancel (f : CancelFunc) : M unit := fun s =>
  let c := cmd s in
  mkRun (Val tt)
        (mkState (mkCommander (Some f) (envCfg c) (logger c)
                              (metricsCollector c) (opts c))
                 (nextCtx s) (cancelled s)) [].

(** ** The commander *)

(** [NewCommander] (lines 48-55): [cancel] is left at its zero value. *)
Definition NewCommander (opts : OptionsPtr) (metricsCollector : CollectorPtr)
    (logger : LoggerPtr) : Commander :=
  mkCommander None zeroConfig logger metricsCollector opts.

(** The state of a process that has just built its commander. *)
Definition fresh (c : Commander) : State := mkState c 0 [].

Section Lifecycle.

Variable w : World.

(** A call into a collaborator: the event is made, and the value [v] comes
    back when the world lets the call return. *)
Definition call {A} (e : Event) (v : A) : M A := fun s =>
  match behave w e with
  | Returns => mkRun (Val v) s [e]
  | Panics => mkRun Panic s [e]
  | Exits => mkRun Exit s [e]
  | Blocks => mkRun Block s [e]
  end.

(** [namedLogger] (lines 155-157). *)
Definition namedLogger : M SugaredLogger :=
  l <- field logger ;;
  call (ev_namedLogger l) (mkSugaredLogger l commanderName [("backend", backend)]).

(** [Init] (lines 58-63). *)
Definition Init : M (option error) := fun s =>
  let c := cmd s in
  let '(cfg', err) := envconfig_Process w "" (envCfg c) in
  let s' := mkState (mkCommander (cancel c) cfg' (logger c)
                                 (metricsCollector c) (opts c))
                    (nextCtx s) (cancelled s) in
  match err with
  | Some e =>
      mkRun (Val (Some (Errorf "failed to read configuration for " commanderName e)))
            s' []
  | None => mkRun (Val None) s' []
  end.

(** [Stop] (lines 150-153).  Calling a nil func value panics. *)
Definition Stop : M (option error) :=
  f <- field cancel ;;
  match f with
  | None => fun s => mkRun Panic s []
  | Some f => callCancel f ;; ret None
  end.

(** [Start] (lines 66-147).  The deferred [CloseIdleConnections] of line 78
    wraps everything from line 80 to the end of the function. *)
Definition Start : M (option error) :=
  (* line 67 *)
  namedLogger ;;
  cfg <- field envCfg ;;
  o <- field opts ;;
  call (ev_Infow "Starting Event Publisher" cfg o) tt ;;
  (* line 70 *)
  port <- cfgField Port ;;
  messageReceiver <- call (ev_NewHTTPMessageReceiver port) (mkReceiver port) ;;
  (* lines 73-74 *)
  parent <- call ev_signals_NewContext SignalContext ;;
  cc <- WithCancel parent ;;
  let ctx := fst cc in
  setCancel (snd cc) ;;
  (* lines 77-78 *)
  cfgp <- field envCfg ;;
  client <- call (ev_oauth_NewClient ctx cfgp) (mkClient ctx cfgp) ;;
  defer (call (ev_CloseIdleConnections client) tt)
   ((* line 81 *)
    url <- cfgField EventMeshPublishURL ;;
    lg <- field logger ;;
    messageSender <- call (ev_NewSender url client lg) (mkSender url client lg) ;;
    (* line 84 *)
    k8sConfig <- call ev_GetConfigOrDie ClusterConfig ;;
    (* lines 87-94 *)
    enabled <- cfgField ApplicationCRDEnabled ;;
    applicationLister <-
      (if enabled : bool then
         dynamicClient <- call (ev_NewForConfigOrDie k8sConfig)
                               (mkDynamicClient k8sConfig) ;;
         l <- call (ev_application_NewLister ctx dynamicClient)
                   (mkLister ctx dynamicClient) ;;
         namedLogger ;;
         call (ev_Info "Application CR lister is enabled!") tt ;;
         ret (Some l)
       else
         namedLogger ;;
         call (ev_Info "Application CR lister is disabled!") tt ;;
         ret None) ;;
    (* lines 97-101 *)
    ns <- cfgField EventMeshNamespace ;;
    prefix <- cfgField EventTypePrefix ;;
    legacyTransformer <- call (ev_legacy_NewTransformer ns prefix applicationLister)
                              (mkTransformer ns prefix applicationLister) ;;
    (* lines 104-111; the three chained calls of line 105 are one event *)
    factory <- call (ev_GenerateSubscriptionInfFactory k8sConfig)
                    (mkInfFactory k8sConfig) ;;
    subLister <- call (ev_ForResource_Lister factory SubscriptionGVR)
                      (mkSubLister factory SubscriptionGVR) ;;
    prefix1 <- cfgField EventTypePrefix ;;
    ns1 <- cfgField EventMeshNamespace ;;
    lg1 <- field logger ;;
    let subscribedProcessor := mkProcessor subLister prefix1 ns1 lg1 in
    (* lines 113-115 *)
    namedLogger ;;
    call (ev_Info "Waiting for informers caches to sync") tt ;;
    lg2 <- field logger ;;
    call (ev_WaitForCacheSyncOrDie ctx factory lg2) tt ;;
    namedLogger ;;
    call (ev_Info "Informers were successfully synced") tt ;;
    (* line 118 *)
    prefix2 <- cfgField EventTypePrefix ;;
    lg3 <- field logger ;;
    eventTypeCleanerV1 <- call (ev_eventtype_NewCleaner prefix2 applicationLister lg3)
                               (mkCleaner prefix2 applicationLister lg3) ;;
    (* line 121 *)
    lg4 <- field logger ;;
    eventTypeCleaner <- call (ev_NewEventMeshCleaner lg4) (mkEventMeshCleaner lg4) ;;
    (* lines 124-125 *)
    prefix3 <- cfgField EventTypePrefix ;;
    ns3 <- cfgField EventMeshNamespace ;;
    lg5 <- field logger ;;
    ceBuilder <- call (ev_NewEventMeshBuilder prefix3 ns3 eventTypeCleaner
                                              applicationLister lg5)
                      (mkBuilder prefix3 ns3 eventTypeCleaner applicationLister lg5) ;;
    (* lines 128-142 *)
    checker <- call ev_health_NewChecker HealthChecker ;;
    timeout <- cfgField RequestTimeout ;;
    o1 <- field opts ;;
    lg6 <- field logger ;;
    mc <- field metricsCollector ;;
    prefix4 <- cfgField EventTypePrefix ;;
    let h := mkHandler messageReceiver messageSender checker timeout
                       legacyTransformer o1 subscribedProcessor lg6 mc
                       eventTypeCleanerV1 ceBuilder prefix4 EventMeshBackend in
    call (ev_handler_New h) tt ;;
    err <- call (ev_handler_Start h ctx) (serveErr w) ;;
    match err with
    | Some e =>
        (* line 143 *)
        ret (Some (Errorf "failed to start handler for " commanderName e))
    | None =>
        (* lines 145-146 *)
        namedLogger ;;
        call (ev_Info "Event Publisher was shut down") tt ;;
        ret None
    end).

End Lifecycle.

(** ** Sample worlds and commanders *)

(** Every collaborator call returns; the serve call returns [e]. *)
Definition calm (e : option error) : World :=
  mkWorld (fun _ => Returns) e (fun _ cfg => (cfg, None)).

Definition c0 : Commander := NewCommander (Some 1%nat) (Some 2%nat) (Some 3%nat).

(** The serve call stays blocked: the publisher is running. *)
Definition serving : World :=
  mkWorld (fun e => match e with
                    | ev_handler_Start _ _ => Blocks
                    | _ => Returns
                    end)
          None (fun _ cfg => (cfg, None)).

(** The cluster configuration cannot be obtained: [GetConfigOrDie] ends the
    process. *)
Definition noCluster : World :=
  mkWorld (fun e => match e with
                    | ev_GetConfigOrDie => Exits
                    | _ => Returns
                    end)
          None (fun _ cfg => (cfg, None)).

(** The informer caches never sync: [WaitForCacheSyncOrDie] ends the process. *)
Definition unsynced : World :=
  mkWorld (fun e => match e with
                    | ev_WaitForCacheSyncOrDie _ _ _ => Exits
                    | _ => Returns
                    end)
          None (fun _ cfg => (cfg, None)).

(** The informer caches are still syncing: [Start] is blocked in
    [WaitForCacheSyncOrDie] and has not completed its initialization. *)
Definition syncing : World :=
  mkWorld (fun e => match e with
                    | ev_WaitForCacheSyncOrDie _ _ _ => Blocks
                    | _ => Returns
                    end)
          None (fun _ cfg => (cfg, None)).

(** A sample loader that accepts ports from 1 to 65535 and rejects the rest. *)
Definition portLoader (port : Z) : World :=
  mkWorld (fun _ => Returns) None
          (fun _ cfg =>
             if ((0 <? port) && (port <? 65536))%Z
             then (mkEventMeshConfig port "https://mesh/publish" "/ns" "sap.kyma.custom"
                                     5000000000 false, None)
             else (cfg, Some "envconfig.Process: assigning INGRESS_PORT")).

(** ** Classifying events *)

Definition is_close (e : Event) : bool :=
  match e with ev_CloseIdleConnections _ => true | _ => false end.

Definition is_serve (e : Event) : bool :=
  match e with ev_handler_Start _ _ => true | _ => false end.

Definition is_wait (e : Event) : bool :=
  match e with ev_WaitForCacheSyncOrDie _ _ _ => true | _ => false end.

(** The calls that hand the subscription processor to its reader. *)
Definition uses_processor (e : Event) : bool :=
  match e with
  | ev_handler_New _ => true
  | ev_handler_Start _ _ => true
  | _ => false
  end.

(** The calls that build the dynamic client and the application lister. *)
Definition is_dynamic (e : Event) : bool :=
  match e with
  | ev_NewForConfigOrDie _ => true
  | ev_application_NewLister _ _ => true
  | _ => false
  end.

Definition count (p : Event -> bool) (t : list Event) : nat :=
  List.length (filter p t).

(** The run gave an error value back to its caller. *)
Definition returns_error {A} (r : Run (option A)) : bool :=
  match res r with
  | Val (Some _) => true
  | _ => false
  end.

(** Every [p] event of [t] comes after some [g] event ([seen]: one was
    already met). *)
Fixpoint gated_by (g p : Event -> bool) (seen : bool) (t : list Event) : bool :=
  match t with
  | [] => true
  | e :: t' => (if p e then seen else true) && gated_by g p (seen || g e) t'
  end.

(** The events of the first lines of [Start] in state [s]. *)
Definition loggerEvent (s : State) : Event := ev_namedLogger (logger (cmd s)).

Definition startingEvent (s : State) : Event :=
  ev_Infow "Starting Event Publisher" (envCfg (cmd s)) (opts (cmd s)).

Definition receiverEvent (s : State) : Event :=
  ev_NewHTTPMessageReceiver (Port (envCfg (cmd s))).

(** The lifecycle context [Start] creates in state [s]. *)
Definition lifecycleCtx (s : State) : Context :=
  CancelContext (nextCtx s) SignalContext.

Definition clientEvent (s : State) : Event :=
  ev_oauth_NewClient (lifecycleCtx s) (envCfg (cmd s)).

Definition closeEvent (s : State) : Event :=
  ev_CloseIdleConnections (mkClient (lifecycleCtx s) (envCfg (cmd s))).

Definition waitEvent (s : State) : Event :=
  ev_WaitForCacheSyncOrDie (lifecycleCtx s) (mkInfFactory ClusterConfig)
                           (logger (cmd s)).

(** Every call of lines 67-74 returns, so [Start] gets to store the cancel
    func of line 74. *)
Definition reaches_line_74 (w : World) (s : State) : Prop :=
  behave w (loggerEvent s) = Returns /\
  behave w (startingEvent s) = Returns /\
  behave w (receiverEvent s) = Returns /\
  behave w ev_signals_NewContext = Returns.

(** The stored cancel func, if any, belongs to a context already created. *)
Definition well_numbered (s : State) : Prop :=
  forall id, cancel (cmd s) = Some (CancelOf id) -> id < nextCtx s.

(** [s'] differs from [s] at most in the cancel func and the contexts. *)
Definition same_fixed_fields (s s' : State) : Prop :=
  envCfg (cmd s') = envCfg (cmd s) /\
  logger (cmd s') = logger (cmd s) /\
  metricsCollector (cmd s') = metricsCollector (cmd s) /\
  opts (cmd s') = opts (cmd s).

(** [m] never writes the config, logger, collector or options fields. *)
Definition keeps {A} (m : M A) : Prop :=
  forall s, same_fixed_fields s (post (m s)).

(** The state [Start] leaves once line 74 has run. *)
Definition started (s : State) : State :=
  mkState (mkCommander (Some (CancelOf (nextCtx s))) (envCfg (cmd s))
                       (logger (cmd s)) (metricsCollector (cmd s)) (opts (cmd s)))
          (S (nextCtx s)) (cancelled s).

(** The first [Start] of [c0] is blocked in its serve call. *)
Definition running : State := post (Start serving (fresh c0)).

Definition is_client (e : Event) : bool :=
  match e with ev_oauth_NewClient _ _ => true | _ => false end.

(** The application lister a constructor call receives; nil for the calls
    that take none. *)
Definition lister_arg (e : Event) : option Lister :=
  match e with
  | ev_legacy_NewTransformer _ _ l => l
  | ev_eventtype_NewCleaner _ l _ => l
  | ev_NewEventMeshBuilder _ _ _ l _ => l
  | _ => None
  end.

Definition nil_lister (e : Event) : bool :=
  match lister_arg e with
  | None => true
  | Some _ => false
  end.

(** The constructor calls of lines 97-101, 118 and 124-125 in state [s], for
    the application lister [l]. *)
Definition transformerEvent (s : State) (l : option Lister) : Event :=
  ev_legacy_NewTransformer (EventMeshNamespace (envCfg (cmd s)))
                           (EventTypePrefix (envCfg (cmd s))) l.

Definition cleanerEvent (s : State) (l : option Lister) : Event :=
  ev_eventtype_NewCleaner (EventTypePrefix (envCfg (cmd s))) l (logger (cmd s)).

Definition builderEvent (s : State) (l : option Lister) : Event :=
  ev_NewEventMeshBuilder (EventTypePrefix (envCfg (cmd s)))
                         (EventMeshNamespace (envCfg (cmd s)))
                         (mkEventMeshCleaner (logger (cmd s))) l (logger (cmd s)).

(** What [Start] returns for the serve result [e] (lines 142-146). *)
Definition wrapServe (e : option error) : option error :=
  match e with
  | Some msg => Some ("failed to start handler for beb-commander : " ++ msg)
  | None => None
  end.

(** The call neither builds the dynamic client or the application lister
    nor receives an application lister. *)
Definition no_lister_use (e : Event) : bool :=
  negb (is_dynamic e) && nil_lister e.

(** ** Further vocabulary *)

(** The context a call receives, for the calls that take one. *)
Definition ctx_arg (e : Event) : option Context :=
  match e with
  | ev_oauth_NewClient c _ => Some c
  | ev_application_NewLister c _ => Some c
  | ev_WaitForCacheSyncOrDie c _ _ => Some c
  | ev_handler_Start _ c => Some c
  | _ => None
  end.

Definition is_done (e : Event) : bool :=
  match e with ev_ctx_done _ => true | _ => false end.

(** The constructor calls that take the application lister. *)
Definition takes_lister (e : Event) : bool :=
  match e with
  | ev_legacy_NewTransformer _ _ _ => true
  | ev_eventtype_NewCleaner _ _ _ => true
  | ev_NewEventMeshBuilder _ _ _ _ _ => true
  | _ => false
  end.

(** The application lister of lines 89-90 in state [s]. *)
Definition builtLister (s : State) : Lister :=
  mkLister (lifecycleCtx s) (mkDynamicClient ClusterConfig).

(** Every closed context was numbered before the next one to come. *)
Definition cancelled_bounded (s : State) : Prop :=
  forall id, In id (cancelled s) -> id < nextCtx s.

(** The states a commander built from [o], [m] and [l] goes through. *)
Inductive reachable (o : OptionsPtr) (m : CollectorPtr) (l : LoggerPtr) : State -> Prop :=
| reach_new : reachable o m l (fresh (NewCommander o m l))
| reach_Init (w : World) (s : State) :
    reachable o m l s -> reachable o m l (post (Init w s))
| reach_Start (w : World) (s : State) :
    reachable o m l s -> reachable o m l (post (Start w s))
| reach_Stop (s : State) :
    reachable o m l s -> reachable o m l (post (Stop s)).

(** The handler [h] is wired from the commander and its config in state [s]:
    the arguments of lines 128-141 as lines 70-125 compute them. *)
Definition wired (s : State) (h : Handler) : Prop :=
  let cfg := envCfg (cmd s) in
  rcv_port (h_receiver h) = Port cfg /\
  snd_url (h_sender h) = EventMeshPublishURL cfg /\
  snd_client (h_sender h) = mkClient (lifecycleCtx s) cfg /\
  h_timeout h = RequestTimeout cfg /\
  tr_namespace (h_transformer h) = EventMeshNamespace cfg /\
  tr_prefix (h_transformer h) = EventTypePrefix cfg /\
  Prefix (h_processor h) = EventTypePrefix cfg /\
  Namespace (h_processor h) = EventMeshNamespace cfg /\
  cln_prefix (h_cleaner h) = EventTypePrefix cfg /\
  bld_prefix (h_builder h) = EventTypePrefix cfg /\
  bld_namespace (h_builder h) = EventMeshNamespace cfg /\
  h_prefix h = EventTypePrefix cfg /\
  h_opts h = opts (cmd s) /\
  h_logger h = logger (cmd s) /\
  h_collector h = metricsCollector (cmd s) /\
  tr_lister (h_transformer h) = cln_lister (h_cleaner h) /\
  cln_lister (h_cleaner h) = bld_lister (h_builder h) /\
  bld_lister (h_builder h) =
    (if ApplicationCRDEnabled cfg then Some (builtLister s) else None).

(** The handler a handler call is about. *)
Definition handler_arg (e : Event) : option Handler :=
  match e with
  | ev_handler_New h => Some h
  | ev_handler_Start h _ => Some h
  | _ => None
  end.


(** The config [portLoader 8080] loads, the state [Init] leaves with it, and
    the handler [Start] then builds. *)
Definition loadedConfig : EventMeshConfig :=
  mkEventMeshConfig 8080 "https://mesh/publish" "/ns" "sap.kyma.custom"
                    5000000000 false.

Definition loaded : State := post (Init (portLoader 8080) (fresh c0)).

Definition loadedHandler : Handler :=
  mkHandler
    (mkReceiver 8080)
    (mkSender "https://mesh/publish"
              (mkClient (CancelContext 0 SignalContext) loadedConfig) (Some 3))
    HealthChecker
    5000000000
    (mkTransformer "/ns" "sap.kyma.custom" None)
    (Some 1)
    (mkProcessor (mkSubLister (mkInfFactory ClusterConfig) SubscriptionGVR)
                 "sap.kyma.custom" "/ns" (Some 3))
    (Some 3)
    (Some 2)
    (mkCleaner "sap.kyma.custom" None (Some 3))
    (mkBuilder "sap.kyma.custom" "/ns" (mkEventMeshCleaner (Some 3)) None (Some 3))
    "sap.kyma.custom"
    EventMeshBackend.

(** A sample loader that turns the Application-CRD lookup on. *)
Definition crdLoader : World :=
  mkWorld (fun _ => Returns) None
          (fun _ _ => (mkEventMeshConfig 8080 "https://mesh/publish" "/ns"
                                         "sap.kyma.custom" 5000000000 true, None)).

Definition crdLoaded : State := post (Init crdLoader (fresh c0)).

(** [signals.NewContext] refuses a second call in the same process and
    panics; a serve call that is reached stays blocked. *)
Definition onceOnly : World :=
  mkWorld (fun e => match e with
                    | ev_signals_NewContext => Panics
                    | ev_handler_Start _ _ => Blocks
                    | _ => Returns
                    end)
          None (fun _ cfg => (cfg, None)).

(** The calls of lines 67-74, up to [signals.NewContext]. *)
Definition openingCalls (s : State) : list Event :=
  [loggerEvent s; startingEvent s; receiverEvent s; ev_signals_NewContext].

(** The log call of line 145. *)
Definition shutdownEvent : Event := ev_Info "Event Publisher was shut down".

Definition is_NewForConfigOrDie (e : Event) : bool :=
  match e with ev_NewForConfigOrDie _ => true | _ => false end.

Definition is_NewLister (e : Event) : bool :=
  match e with ev_application_NewLister _ _ => true | _ => false end.

(** ** Proof tools *)

(** The scrutinee on which the evaluation of [t] is waiting. *)
Ltac stuck t :=
  lazymatch t with
  | context [match ?x with _ => _ end] =>
      lazymatch x with
      | context [match _ with _ => _ end] => stuck x
      | _ => x
      end
  end.

(** Case analysis on the next thing the run [H : r = ...] depends on. *)
Ltac step_in H :=
  match type of H with
  | _ = ?t =>
      let x := stuck t in
      first [ match goal with E : x = _ |- _ => rewrite E in H; cbn in H end
            | destruct x eqn:?; cbn in H ]
  end.

(** Follow every path of the run in [H]; [leaf] closes each finished path. *)
Ltac explore H leaf := first [ step_in H; explore H leaf | leaf ].

Ltac unfold_run H :=
  unfold Start, Stop, namedLogger, cfgField, bind, defer, call, field, ret,
    WithCancel, setCancel, callCancel, after in H;
  cbn in H.

(** For every element of a concrete trace. *)
Ltac each_event He tac :=
  cbn in He;
  repeat (destruct He as [<- | He]; [ tac | ]);
  destruct He.

(** Rewrite with the known value of the Application-CRD flag. *)
Ltac use_flag :=
  match goal with
  | Hflag : ApplicationCRDEnabled _ = _ |- _ => rewrite Hflag
  end.


(** Like [step_in], but a call that [Hall] makes return is not split. *)
Ltac step_with Hall H :=
  match type of H with
  | _ = ?t =>
      let x := stuck t in
      first
        [ lazymatch x with
          | behave _ ?e => rewrite (Hall e) in H by reflexivity
          end;
          cbn in H
        | step_in H ]
  end.

Ltac explore_with Hall H leaf :=
  first [ step_with Hall H; explore_with Hall H leaf | leaf ].

(** * Properties *)

(** ** The monad *)

Lemma res_after {A} (t : list Event) (r : Run A) : res (after t r) = res r.
Proof. destruct r; reflexivity. Qed.

Lemma post_after {A} (t : list Event) (r : Run A) : post (after t r) = post r.
Proof. destruct r; reflexivity. Qed.

Lemma emitted_after {A} (t : list Event) (r : Run A) :
  emitted (after t r) = (t ++ emitted r)%list.
Proof. destruct r; reflexivity. Qed.

(** ** Frame: what no operation writes *)

Lemma same_fixed_refl (s : State) : same_fixed_fields s s.
Proof. repeat split. Qed.

Lemma same_fixed_trans (s1 s2 s3 : State) :
  same_fixed_fields s1 s2 -> same_fixed_fields s2 s3 -> same_fixed_fields s1 s3.
Proof.
  intros (Ha & Hb & Hc & Hd) (Ha' & Hb' & Hc' & Hd').
  repeat split; etransitivity; eassumption.
Qed.

Lemma keeps_ret {A} (a : A) : keeps (ret a).
Proof. intro s. apply same_fixed_refl. Qed.

Lemma keeps_field {A} (f : Commander -> A) : keeps (field f).
Proof. intro s. apply same_fixed_refl. Qed.

Lemma keeps_call {A} (w : World) (e : Event) (v : A) : keeps (call w e v).
Proof. intro s. unfold call. destruct (behave w e); apply same_fixed_refl. Qed.

Lemma keeps_WithCancel (parent : Context) : keeps (WithCancel parent).
Proof. intro s. repeat split. Qed.

Lemma keeps_setCancel (f : CancelFunc) : keeps (setCancel f).
Proof. intro s. repeat split. Qed.

Lemma keeps_callCancel (f : CancelFunc) : keeps (callCancel f).
Proof.
  intro s. destruct f as [id]. unfold callCancel.
  destruct (existsb (Nat.eqb id) (cancelled s)); repeat split.
Qed.

Lemma keeps_bind {A B} (m : M A) (f : A -> M B) :
  keeps m -> (forall a, keeps (f a)) -> keeps (bind m f).
Proof.
  intros Hm Hf s. unfold bind.
  specialize (Hm s). destruct (m s) as [[a | | | ] s1 t1]; cbn in Hm; try exact Hm.
  rewrite post_after. eapply same_fixed_trans; [exact Hm | apply Hf].
Qed.

Lemma keeps_defer {A} (d : M unit) (body : M A) :
  keeps d -> keeps body -> keeps (defer d body).
Proof.
  intros Hd Hb s. unfold defer.
  specialize (Hb s). destruct (body s) as [[a | | | ] s1 t1]; cbn in Hb; try exact Hb.
  all: rewrite post_after; specialize (Hd s1);
    destruct (d s1) as [[u | | | ] s2 t2]; cbn in *;
    eapply same_fixed_trans; eassumption.
Qed.

Lemma keeps_namedLogger (w : World) : keeps (namedLogger w).
Proof.
  unfold namedLogger. apply keeps_bind; [apply keeps_field | intro l; apply keeps_call].
Qed.

Create HintDb keeps.

#[local] Hint Resolve keeps_ret keeps_field keeps_call keeps_WithCancel
  keeps_setCancel keeps_callCancel keeps_namedLogger : keeps.

Ltac keeps_tac :=
  repeat first
    [ apply keeps_bind; [ | intro ]
    | apply keeps_defer
    | solve [ unfold cfgField; auto with keeps ]
    | match goal with
      | |- keeps (if ?b then _ else _) => destruct b
      | |- keeps (match ?x with Some _ => _ | None => _ end) => destruct x
      end ].

Lemma keeps_Start (w : World) : keeps (Start w).
Proof. unfold Start. keeps_tac. Qed.

Lemma keeps_Stop : keeps Stop.
Proof.
  unfold Stop. apply keeps_bind; [auto with keeps | intros [f | ]].
  - keeps_tac.
  - intro s. apply same_fixed_refl.
Qed.

(** [Stop] writes no field of the commander at all. *)
Lemma Stop_cmd (s : State) : cmd (post (Stop s)) = cmd s.
Proof.
  unfold Stop, bind, field, callCancel, ret, after.
  destruct (cancel (cmd s)) as [[id] | ]; cbn; [ | reflexivity].
  destruct (existsb (Nat.eqb id) (cancelled s)); reflexivity.
Qed.

(** C9. Neither [Start] nor [Stop] writes the loaded config object;
    [Start] leaves the config, logger, metrics collector and options fields
    of the commander as they were (the cancel func is the only field it
    assigns), and [Stop] leaves the whole commander as it was. *)
Theorem Start_Stop_keep_config (w : World) (s : State) :
  envCfg (cmd (post (Start w s))) = envCfg (cmd s) /\
  logger (cmd (post (Start w s))) = logger (cmd s) /\
  metricsCollector (cmd (post (Start w s))) = metricsCollector (cmd s) /\
  opts (cmd (post (Start w s))) = opts (cmd s) /\
  cmd (post (Stop s)) = cmd s.
Proof.
  destruct (keeps_Start w s) as (Ha & Hb & Hc & Hd).
  repeat split; try assumption. apply Stop_cmd.
Qed.

(** ** [Stop] *)

(** On a commander that holds no cancel func, [Stop] panics at line 151. *)
Lemma Stop_nil_cancel_panics (s : State) :
  cancel (cmd s) = None -> Stop s = mkRun Panic s [].
Proof.
  intros Hnil. unfold Stop, bind, field. rewrite Hnil. reflexivity.
Qed.

(** C1, as stated, fails: on a commander that [NewCommander] has just built
    the cancel func is nil, and [Stop] panics instead of returning nil. *)
Lemma Stop_on_new_commander_panics :
  cancel c0 = None /\
  Stop (fresh c0) = mkRun Panic (fresh c0) [].
Proof. split; reflexivity. Qed.

(** Once a cancel func is stored, [Stop] returns nil, and a second [Stop]
    returns nil again and changes nothing. *)
Lemma Stop_twice (s : State) (f : CancelFunc) :
  cancel (cmd s) = Some f ->
  res (Stop s) = Val None /\
  res (Stop (post (Stop s))) = Val None /\
  emitted (Stop (post (Stop s))) = [] /\
  post (Stop (post (Stop s))) = post (Stop s).
Proof.
  intros Hf. destruct f as [id].
  unfold Stop, bind, field, callCancel, ret, after. rewrite Hf. cbn.
  destruct (existsb (Nat.eqb id) (cancelled s)) eqn:Hin; cbn; rewrite Hf; cbn.
  - rewrite Hin. cbn. repeat split.
  - rewrite Nat.eqb_refl. cbn. repeat split.
Qed.

(** ** [Start] *)

(** [Start] either stops before line 74 and leaves the state alone, or
    leaves exactly the state of line 74. *)
Lemma Start_post (w : World) (s : State) :
  post (Start w s) = s \/ post (Start w s) = started s.
Proof.
  remember (Start w s) as r eqn:Hr. unfold_run Hr.
  explore Hr ltac:(subst r; cbn; auto).
Qed.

Lemma Start_reaches_line_74 (w : World) (s : State) :
  reaches_line_74 w s -> post (Start w s) = started s.
Proof.
  unfold reaches_line_74, loggerEvent, startingEvent, receiverEvent.
  intros (H1 & H2 & H3 & H4).
  remember (Start w s) as r eqn:Hr. unfold_run Hr.
  rewrite H1, H2, H3, H4 in Hr. cbn in Hr.
  explore Hr ltac:(subst r; reflexivity).
Qed.

(** When every collaborator call returns, [Start] serves once and returns
    what the serve call gave. *)
Lemma Start_returns_when_calls_return (w : World) (s : State) :
  (forall e, behave w e = Returns) ->
  res (Start w s) = Val (wrapServe (serveErr w)) /\
  count is_serve (emitted (Start w s)) = 1 /\
  In (receiverEvent s) (emitted (Start w s)).
Proof.
  intros Hall. unfold receiverEvent.
  remember (Start w s) as r eqn:Hr. unfold_run Hr.
  explore_with Hall Hr ltac:(
    subst r; cbn;
    split; [reflexivity | split; [reflexivity | ]];
    repeat (first [left; reflexivity | right])).
Qed.

(** C1. Once [Start] has stored the cancel func at line 74, calling [Stop]
    is safe whether or not [Start] went on to complete its initialization:
    [Stop] does not panic, returns nil, leaves the commander and the context
    supply as they were, and does nothing but close the lifecycle context. *)
Theorem Stop_safe_once_cancel_stored (w : World) (s : State) :
  reaches_line_74 w s ->
  res (Stop (post (Start w s))) = Val None /\
  cmd (post (Stop (post (Start w s)))) = cmd (post (Start w s)) /\
  nextCtx (post (Stop (post (Start w s)))) = nextCtx (post (Start w s)) /\
  (forall e, In e (emitted (Stop (post (Start w s)))) -> e = ev_ctx_done (nextCtx s)).
Proof.
  intros Hreach. rewrite (Start_reaches_line_74 w s Hreach).
  unfold Stop, bind, field, callCancel, ret, after, started. cbn.
  destruct (existsb (Nat.eqb (nextCtx s)) (cancelled s)); cbn;
    (split; [reflexivity | split; [reflexivity | split; [reflexivity | ]]]);
    intros e He.
  - destruct He.
  - destruct He as [<- | []]. reflexivity.
Qed.

Lemma Stop_safe_once_cancel_stored_witness :
  res (Stop (post (Start syncing (fresh c0)))) = Val None /\
  cmd (post (Stop (post (Start syncing (fresh c0))))) =
  cmd (post (Start syncing (fresh c0))) /\
  nextCtx (post (Stop (post (Start syncing (fresh c0))))) =
  nextCtx (post (Start syncing (fresh c0))) /\
  (forall e, In e (emitted (Stop (post (Start syncing (fresh c0))))) ->
             e = ev_ctx_done (nextCtx (fresh c0))).
Proof.
  apply (Stop_safe_once_cancel_stored syncing (fresh c0)). repeat split.
Defined.

(** C2. [Start] has no double-start check of its own.  On any commander,
    running or not, a [Start] whose logger and receiver calls return goes
    through the start sequence again: it logs the start, builds a receiver
    and calls [signals.NewContext], the call line 72 marks as assuring
    uniqueness.  When that call does not return, [Start] stops there, does
    not return, and the stored cancel func is kept; when it returns, [Start]
    creates a new cancellable context and stores its cancel func in place of
    the one stored before.  The commander holds one cancel func at a time. *)
Theorem Start_overwrites_cancel (w : World) (s : State) :
  behave w (loggerEvent s) = Returns ->
  behave w (startingEvent s) = Returns ->
  behave w (receiverEvent s) = Returns ->
  firstn 4 (emitted (Start w s)) = openingCalls s /\
  (behave w ev_signals_NewContext <> Returns ->
     emitted (Start w s) = openingCalls s /\
     post (Start w s) = s /\
     forall x, res (Start w s) <> Val x) /\
  (behave w ev_signals_NewContext = Returns ->
     well_numbered s ->
     cancel (cmd (post (Start w s))) = Some (CancelOf (nextCtx s)) /\
     cancel (cmd (post (Start w s))) <> cancel (cmd s) /\
     well_numbered (post (Start w s))).
Proof.
  intros H1 H2 H3. split; [ | split].
  - revert H1 H2 H3.
    unfold openingCalls, loggerEvent, startingEvent, receiverEvent.
    intros H1 H2 H3.
    remember (Start w s) as r eqn:Hr. unfold_run Hr.
    rewrite H1, H2, H3 in Hr. cbn in Hr.
    explore Hr ltac:(subst r; reflexivity).
  - revert H1 H2 H3.
    unfold openingCalls, loggerEvent, startingEvent, receiverEvent.
    intros H1 H2 H3.
    remember (Start w s) as r eqn:Hr. unfold_run Hr.
    rewrite H1, H2, H3 in Hr. cbn in Hr.
    destruct (behave w ev_signals_NewContext) eqn:H4; cbn in Hr;
      [ intros Hnot; exfalso; apply Hnot; reflexivity | | | ];
      (subst r; intros _; split; [reflexivity | split; [reflexivity | ]];
       intros x; discriminate).
  - intros H4 Hwn.
    assert (Hreach : reaches_line_74 w s) by (repeat split; assumption).
    rewrite (Start_reaches_line_74 w s Hreach). cbn.
    split; [reflexivity | split].
    + intro Heq. symmetry in Heq. apply Hwn in Heq. lia.
    + intros id Hid. cbn in Hid. injection Hid as <-. cbn. lia.
Qed.

Lemma Start_overwrites_cancel_witness :
  (firstn 4 (emitted (Start onceOnly running)) = openingCalls running /\
   emitted (Start onceOnly running) = openingCalls running /\
   post (Start onceOnly running) = running) /\
  (cancel (cmd (post (Start serving (fresh c0)))) = Some (CancelOf 0) /\
   cancel (cmd (post (Start serving (fresh c0)))) <> cancel (cmd (fresh c0))).
Proof.
  split.
  - destruct (Start_overwrites_cancel onceOnly running eq_refl eq_refl eq_refl)
      as (Hfirst & Hstop & _).
    destruct Hstop as (Hall & Hpost & _); [discriminate | ].
    split; [exact Hfirst | split; [exact Hall | exact Hpost]].
  - destruct (Start_overwrites_cancel serving (fresh c0) eq_refl eq_refl eq_refl)
      as (_ & _ & Hnew).
    destruct Hnew as (Hset & Hdiff & _);
      [reflexivity | intros id Hid; discriminate Hid | ].
    split; [exact Hset | exact Hdiff].
Defined.

(** C2, as stated, fails: while a first [Start] is blocked in its serve call,
    a second [Start] is no no-op.  It logs the start, builds a receiver and
    calls [signals.NewContext] before anything can stop it; here that call
    refuses the second use, and the second [Start] panics. *)
Lemma second_Start_is_not_a_noop :
  res (Start serving (fresh c0)) = Block /\
  cancel (cmd running) = Some (CancelOf 0) /\
  emitted (Start onceOnly running) =
    [ev_namedLogger (Some 3);
     ev_Infow "Starting Event Publisher" zeroConfig (Some 1);
     ev_NewHTTPMessageReceiver 0;
     ev_signals_NewContext] /\
  res (Start onceOnly running) = Panic.
Proof. repeat split; vm_compute; reflexivity. Qed.

(** C5. After [Start] has created the lifecycle context and stored its
    cancel func, two calls of [Stop] in a row both return nil without a
    panic, and the second one makes no event and leaves the state of the
    first. *)
Theorem Stop_twice_after_Start (w : World) (s : State) :
  reaches_line_74 w s ->
  res (Stop (post (Start w s))) = Val None /\
  res (Stop (post (Stop (post (Start w s))))) = Val None /\
  emitted (Stop (post (Stop (post (Start w s))))) = [] /\
  post (Stop (post (Stop (post (Start w s))))) = post (Stop (post (Start w s))).
Proof.
  intros Hreach. rewrite (Start_reaches_line_74 w s Hreach).
  apply (Stop_twice (started s) (CancelOf (nextCtx s))). reflexivity.
Qed.

Lemma Stop_twice_after_Start_witness :
  res (Stop (post (Start serving (fresh c0)))) = Val None /\
  res (Stop (post (Stop (post (Start serving (fresh c0)))))) = Val None /\
  emitted (Stop (post (Stop (post (Start serving (fresh c0)))))) = [] /\
  post (Stop (post (Stop (post (Start serving (fresh c0)))))) =
  post (Stop (post (Start serving (fresh c0)))).
Proof.
  apply (Stop_twice_after_Start serving (fresh c0)). repeat split.
Defined.

(** C4. [Start] returns only after the handler's serve call has returned,
    and then it returns what the serve call gave.  Whenever [Start] returns,
    the serve call was made exactly once and has returned, and the value is
    nil for a nil serve result and one error that wraps the serve error and
    names beb-commander otherwise.  Conversely, once the serve call is
    reached and returns, [Start] does return that value, provided the
    deferred close (and, on the nil path, the shutdown log line) returns;
    in particular it does so whenever every collaborator call returns. *)
Theorem Start_returns_what_serve_returns (w : World) (s : State) :
  (forall x, res (Start w s) = Val x ->
     count is_serve (emitted (Start w s)) = 1 /\
     (exists h, In (ev_handler_Start h (lifecycleCtx s)) (emitted (Start w s)) /\
                behave w (ev_handler_Start h (lifecycleCtx s)) = Returns) /\
     x = wrapServe (serveErr w)) /\
  (forall h,
     In (ev_handler_Start h (lifecycleCtx s)) (emitted (Start w s)) ->
     behave w (ev_handler_Start h (lifecycleCtx s)) = Returns ->
     behave w (closeEvent s) = Returns ->
     (serveErr w = None -> behave w shutdownEvent = Returns) ->
     res (Start w s) = Val (wrapServe (serveErr w)) /\
     count is_serve (emitted (Start w s)) = 1) /\
  ((forall e, behave w e = Returns) ->
     res (Start w s) = Val (wrapServe (serveErr w)) /\
     count is_serve (emitted (Start w s)) = 1).
Proof.
  split; [ | split].
  - remember (Start w s) as r eqn:Hr. unfold_run Hr.
    explore Hr ltac:(
      subst r; cbn; intros xr Hx;
      first
        [ discriminate Hx
        | injection Hx as <-;
          split; [reflexivity | split; [ | reflexivity]];
          match goal with
          | Hb : behave _ (ev_handler_Start ?h _) = Returns |- _ =>
              exists h; split; [ | exact Hb]
          end;
          repeat (first [left; reflexivity | right]) ]).
  - unfold closeEvent, lifecycleCtx, shutdownEvent.
    remember (Start w s) as r eqn:Hr. unfold_run Hr.
    explore Hr ltac:(
      subst r; cbn; intros hx Hin Hserve Hclose Hlog;
      first
        [ split; reflexivity
        | exfalso;
          repeat (destruct Hin as [Hin' | Hin];
                  [ first [ discriminate Hin'
                          | injection Hin' as <-;
                            first [ congruence
                                  | specialize (Hlog eq_refl); congruence ] ]
                  | ]);
          destruct Hin ]).
  - intros Hret.
    destruct (Start_returns_when_calls_return w s Hret) as (Hres & Hcount & _).
    split; [exact Hres | exact Hcount].
Qed.

Lemma Start_returns_what_serve_returns_witness :
  res (Start (calm (Some "listen tcp :8080: bind: address already in use")) loaded) =
  Val (Some "failed to start handler for beb-commander : listen tcp :8080: bind: address already in use") /\
  count is_serve
    (emitted (Start (calm (Some "listen tcp :8080: bind: address already in use"))
                    loaded)) = 1.
Proof.
  apply (proj1 (proj2 (Start_returns_what_serve_returns
                         (calm (Some "listen tcp :8080: bind: address already in use"))
                         loaded))
           loadedHandler).
  - vm_compute. repeat (first [left; reflexivity | right]).
  - reflexivity.
  - reflexivity.
  - intros Hnil. discriminate Hnil.
Defined.

(** *** The cache-sync gate *)

Lemma gated_by_sound (g p : Event -> bool) (t : list Event) :
  forall seen, gated_by g p seen t = true ->
  forall pre e post, t = (pre ++ e :: post)%list -> p e = true ->
  seen = true \/ exists x, In x pre /\ g x = true.
Proof.
  induction t as [ | a t IH]; intros seen Hg pre e post Heq Hp.
  - destruct pre; discriminate Heq.
  - cbn in Hg. apply andb_prop in Hg as [Hhere Hrest].
    destruct pre as [ | b pre]; cbn in Heq; injection Heq as -> ->.
    + rewrite Hp in Hhere. left. exact Hhere.
    + destruct (IH _ Hrest pre e post eq_refl Hp) as [Hseen | (x & Hin & Hx)].
      * apply orb_prop in Hseen as [Hseen | Hb].
        -- left. exact Hseen.
        -- right. exists b. split; [left; reflexivity | exact Hb].
      * right. exists x. split; [right; exact Hin | exact Hx].
Qed.

(** Along every path of [Start]: the handler calls come after the wait call,
    the only wait call is the one of line 114, the handler calls are made
    only when that call has returned, and [Start] returns only after them. *)
Lemma Start_wait_cases (w : World) (s : State) :
  gated_by is_wait uses_processor false (emitted (Start w s)) = true /\
  (filter is_wait (emitted (Start w s)) = [] \/
   filter is_wait (emitted (Start w s)) = [waitEvent s]) /\
  (existsb uses_processor (emitted (Start w s)) = true ->
   behave w (waitEvent s) = Returns) /\
  match res (Start w s) with
  | Val _ => existsb uses_processor (emitted (Start w s)) = true
  | _ => True
  end.
Proof.
  remember (Start w s) as r eqn:Hr. unfold_run Hr.
  explore Hr ltac:(
    subst r; unfold waitEvent, lifecycleCtx; cbn;
    split; [reflexivity | split; [ | split]];
    [ first [left; reflexivity | right; reflexivity]
    | intro Hu; first [discriminate Hu | assumption]
    | first [reflexivity | exact I] ]).
Qed.

(** C3. In every run of [Start] the handler is built and served, and so the
    subscription processor handed to a reader, only after
    [WaitForCacheSyncOrDie] was called and has returned.  If that call does
    not return (it ends the process when the caches do not sync), [Start]
    never reaches the handler and gives nothing back to its caller, neither
    nil nor an error. *)
Theorem Start_serves_only_after_cache_sync (w : World) (s : State) :
  (forall pre e post,
      emitted (Start w s) = (pre ++ e :: post)%list ->
      uses_processor e = true ->
      In (waitEvent s) pre /\ behave w (waitEvent s) = Returns) /\
  (behave w (waitEvent s) <> Returns ->
      existsb uses_processor (emitted (Start w s)) = false /\
      returns_error (Start w s) = false /\
      forall x, res (Start w s) <> Val x).
Proof.
  destruct (Start_wait_cases w s) as (Hgate & Honly & Hret & Hval).
  split.
  - intros pre e post Heq Hp.
    assert (Hused : existsb uses_processor (emitted (Start w s)) = true).
    { apply existsb_exists. exists e. split; [ | exact Hp].
      rewrite Heq. apply in_or_app. right. left. reflexivity. }
    split; [ | exact (Hret Hused)].
    destruct (gated_by_sound _ _ _ _ Hgate pre e post Heq Hp)
      as [Hseen | (x & Hin & Hx)]; [discriminate Hseen | ].
    assert (Hfil : In x (filter is_wait (emitted (Start w s)))).
    { apply filter_In. split; [ | exact Hx].
      rewrite Heq. apply in_or_app. left. exact Hin. }
    destruct Honly as [Hnone | Hone].
    + rewrite Hnone in Hfil. destruct Hfil.
    + rewrite Hone in Hfil. destruct Hfil as [<- | []]. exact Hin.
  - intros Hnot.
    assert (Hunused : existsb uses_processor (emitted (Start w s)) = false).
    { destruct (existsb uses_processor (emitted (Start w s))); [ | reflexivity].
      exfalso. apply Hnot. apply Hret. reflexivity. }
    rewrite Hunused in Hval. unfold returns_error.
    destruct (res (Start w s)) as [x | | | ]; [discriminate Hval | | | ];
      (split; [exact Hunused | split; [reflexivity | intros x; discriminate]]).
Qed.

(** C3, as stated, fails: when the caches never sync, [Start] does not
    return an error; the process ends inside [WaitForCacheSyncOrDie]. *)
Lemma unsynced_Start_returns_no_error :
  res (Start unsynced (fresh c0)) = Exit /\
  returns_error (Start unsynced (fresh c0)) = false /\
  existsb is_wait (emitted (Start unsynced (fresh c0))) = true /\
  existsb uses_processor (emitted (Start unsynced (fresh c0))) = false.
Proof. repeat split; vm_compute; reflexivity. Qed.

(** *** The deferred [CloseIdleConnections] *)

(** C8. The owned client's idle connections are closed exactly once on
    every path on which [Start] returns, and on every path on which a
    collaborator panics after the client was built; they are never closed
    twice.  When a collaborator ends the process or never comes back, the
    deferred call does not run. *)
Theorem CloseIdleConnections_at_most_once (w : World) (s : State) :
  count is_close (emitted (Start w s)) <= 1 /\
  (forall x, res (Start w s) = Val x ->
     count is_close (emitted (Start w s)) = 1) /\
  (res (Start w s) = Panic ->
     existsb is_client (emitted (Start w s)) = true ->
     behave w (clientEvent s) = Returns ->
     count is_close (emitted (Start w s)) = 1) /\
  (behave w (closeEvent s) = Returns ->
     res (Start w s) = Exit \/ res (Start w s) = Block ->
     count is_close (emitted (Start w s)) = 0).
Proof.
  remember (Start w s) as r eqn:Hr. unfold_run Hr.
  explore Hr ltac:(
    subst r; unfold clientEvent, closeEvent, lifecycleCtx; cbn;
    split; [lia | split; [ | split]];
    [ intros x Hx; first [discriminate Hx | reflexivity]
    | intros Hp Hc Hb; first [discriminate Hp | discriminate Hc | reflexivity | congruence]
    | intros Hc [Hx | Hx]; first [discriminate Hx | reflexivity | congruence] ]).
Qed.

(** C8, as stated, fails: the client is built, [GetConfigOrDie] then ends
    the process, and the idle connections are never closed. *)
Lemma exit_skips_CloseIdleConnections :
  existsb is_client (emitted (Start noCluster (fresh c0))) = true /\
  behave noCluster (clientEvent (fresh c0)) = Returns /\
  res (Start noCluster (fresh c0)) = Exit /\
  count is_close (emitted (Start noCluster (fresh c0))) = 0.
Proof. repeat split; vm_compute; reflexivity. Qed.

(** *** Errors [Start] can return *)

(** The only error [Start] ever returns is the wrapped serve error. *)
Lemma Start_error_is_serve_error (w : World) (s : State) :
  returns_error (Start w s) = true -> serveErr w <> None.
Proof.
  unfold returns_error.
  remember (Start w s) as r eqn:Hr. unfold_run Hr.
  explore Hr ltac:(
    subst r; cbn; intro Hx; first [discriminate Hx | discriminate]).
Qed.

(** Past line 74 the receiver and the client calls have been made. *)
Lemma Start_line_74_events (w : World) (s : State) :
  reaches_line_74 w s ->
  In (receiverEvent s) (emitted (Start w s)) /\
  In (clientEvent s) (emitted (Start w s)).
Proof.
  unfold reaches_line_74, loggerEvent, startingEvent, receiverEvent, clientEvent,
    lifecycleCtx.
  intros (H1 & H2 & H3 & H4).
  remember (Start w s) as r eqn:Hr. unfold_run Hr.
  rewrite H1, H2, H3, H4 in Hr. cbn in Hr.
  explore Hr ltac:(
    subst r; cbn; split; repeat (first [left; reflexivity | right])).
Qed.

(** *** The optional application lister *)

Lemma Start_disabled_cases (w : World) (s : State) :
  ApplicationCRDEnabled (envCfg (cmd s)) = false ->
  forallb no_lister_use (emitted (Start w s)) = true /\
  (existsb uses_processor (emitted (Start w s)) = true ->
   (In (transformerEvent s None) (emitted (Start w s)) /\
    behave w (transformerEvent s None) = Returns) /\
   (In (cleanerEvent s None) (emitted (Start w s)) /\
    behave w (cleanerEvent s None) = Returns) /\
   (In (builderEvent s None) (emitted (Start w s)) /\
    behave w (builderEvent s None) = Returns)).
Proof.
  intros Hflag.
  remember (Start w s) as r eqn:Hr. unfold_run Hr.
  explore Hr ltac:(
    subst r; unfold transformerEvent, cleanerEvent, builderEvent; cbn;
    split;
    [ reflexivity
    | intro Hu;
      first
        [ discriminate Hu
        | repeat split;
          first [ assumption | repeat (first [left; reflexivity | right]) ] ] ]).
Qed.

(** With the flag off, when every call up to the handler returns, the
    transformer, the cleaner and the builder are built with the nil lister
    and the handler is built from them. *)
Lemma Start_disabled_builds_all (w : World) (s : State) :
  ApplicationCRDEnabled (envCfg (cmd s)) = false ->
  (forall e, uses_processor e = false -> is_close e = false ->
             behave w e = Returns) ->
  In (transformerEvent s None) (emitted (Start w s)) /\
  In (cleanerEvent s None) (emitted (Start w s)) /\
  In (builderEvent s None) (emitted (Start w s)) /\
  existsb uses_processor (emitted (Start w s)) = true.
Proof.
  intros Hflag Hall. unfold transformerEvent, cleanerEvent, builderEvent.
  remember (Start w s) as r eqn:Hr. unfold_run Hr.
  explore_with Hall Hr ltac:(
    subst r; cbn;
    split; [ | split; [ | split; [ | reflexivity]]];
    repeat (first [left; reflexivity | right])).
Qed.

(** C6. With the Application-CRD flag off, [Start] makes no call that builds
    the dynamic client or the application lister, and every constructor that
    takes the lister receives nil.  That is no error: when the collaborator
    calls up to the handler return, the legacy transformer, the event-type
    cleaner and the CloudEvent builder are all built with the nil lister and
    the handler is built from them; when every call returns, [Start] returns
    the serve result; and the only error [Start] can return is the serve
    error. *)
Theorem disabled_flag_leaves_lister_nil (w : World) (s : State) :
  ApplicationCRDEnabled (envCfg (cmd s)) = false ->
  (forall e, In e (emitted (Start w s)) ->
     is_dynamic e = false /\ lister_arg e = None) /\
  (existsb uses_processor (emitted (Start w s)) = true ->
   (In (transformerEvent s None) (emitted (Start w s)) /\
    behave w (transformerEvent s None) = Returns) /\
   (In (cleanerEvent s None) (emitted (Start w s)) /\
    behave w (cleanerEvent s None) = Returns) /\
   (In (builderEvent s None) (emitted (Start w s)) /\
    behave w (builderEvent s None) = Returns)) /\
  (returns_error (Start w s) = true -> serveErr w <> None) /\
  ((forall e, uses_processor e = false -> is_close e = false ->
              behave w e = Returns) ->
   In (transformerEvent s None) (emitted (Start w s)) /\
   In (cleanerEvent s None) (emitted (Start w s)) /\
   In (builderEvent s None) (emitted (Start w s)) /\
   existsb uses_processor (emitted (Start w s)) = true) /\
  ((forall e, behave w e = Returns) ->
   res (Start w s) = Val (wrapServe (serveErr w))).
Proof.
  intros Hflag.
  destruct (Start_disabled_cases w s Hflag) as [Hall Hbuilt].
  split; [ | split; [exact Hbuilt | split; [apply Start_error_is_serve_error | split]]].
  - intros e Hin.
    assert (Hno : no_lister_use e = true).
    { rewrite forallb_forall in Hall. apply Hall. exact Hin. }
    unfold no_lister_use, nil_lister in Hno.
    apply andb_prop in Hno as [Hdyn Hnil]. split.
    + apply negb_true_iff. exact Hdyn.
    + destruct (lister_arg e); [discriminate Hnil | reflexivity].
  - exact (Start_disabled_builds_all w s Hflag).
  - intros Hret. exact (proj1 (Start_returns_when_calls_return w s Hret)).
Qed.

Lemma disabled_flag_leaves_lister_nil_witness :
  In (transformerEvent (fresh c0) None) (emitted (Start serving (fresh c0))) /\
  In (cleanerEvent (fresh c0) None) (emitted (Start serving (fresh c0))) /\
  In (builderEvent (fresh c0) None) (emitted (Start serving (fresh c0))) /\
  existsb uses_processor (emitted (Start serving (fresh c0))) = true.
Proof.
  apply (proj1 (proj2 (proj2 (proj2
           (disabled_flag_leaves_lister_nil serving (fresh c0) eq_refl))))).
  intros e Hu Hc. destruct e; try reflexivity; discriminate Hu.
Defined.

(** *** [Start] without [Init] *)

(** C10. [Start] does not check that [Init] ran.  On a commander fresh from
    [NewCommander] the config object is zero-valued, and [Start] goes ahead
    with it: it opens the receiver on port 0, builds the client from the
    zero config and stores the cancel func; the only error it can return is
    the serve error, and when every collaborator call returns it returns
    nil. *)
Theorem Start_runs_without_Init (w : World) (o : OptionsPtr) (m : CollectorPtr)
    (l : LoggerPtr) :
  envCfg (cmd (fresh (NewCommander o m l))) = zeroConfig /\
  (reaches_line_74 w (fresh (NewCommander o m l)) ->
     In (ev_NewHTTPMessageReceiver 0)
        (emitted (Start w (fresh (NewCommander o m l)))) /\
     In (ev_oauth_NewClient (CancelContext 0 SignalContext) zeroConfig)
        (emitted (Start w (fresh (NewCommander o m l)))) /\
     cancel (cmd (post (Start w (fresh (NewCommander o m l))))) = Some (CancelOf 0)) /\
  (returns_error (Start w (fresh (NewCommander o m l))) = true ->
     serveErr w <> None) /\
  res (Start (calm None) (fresh (NewCommander o m l))) = Val None.
Proof.
  split; [reflexivity | split; [ | split]].
  - intros Hreach.
    destruct (Start_line_74_events w _ Hreach) as [Hrcv Hcl].
    rewrite (Start_reaches_line_74 w _ Hreach).
    split; [exact Hrcv | split; [exact Hcl | reflexivity]].
  - apply Start_error_is_serve_error.
  - reflexivity.
Qed.

(** *** [Init], and [Start] after it *)

(** C7. [Init] returns a non-nil error that wraps the loader's error and
    names the commander exactly when [envconfig.Process] rejects the
    environment, and nil exactly when it accepts it; either way the config
    object is left as the loader left it, no other field of the commander
    changes and no collaborator is called.  The commander keeps no record of
    the outcome: a [Start] after a failed [Init] is not barred, and when
    every collaborator call returns it serves on the port the loader left
    and returns the serve result. *)
Theorem Init_surfaces_loader_verdict (w0 w : World) (s : State) :
  (forall e, snd (envconfig_Process w0 "" (envCfg (cmd s))) = Some e ->
     res (Init w0 s) =
     Val (Some ("failed to read configuration for beb-commander : " ++ e))) /\
  (snd (envconfig_Process w0 "" (envCfg (cmd s))) = None ->
     res (Init w0 s) = Val None) /\
  (returns_error (Init w0 s) = true <->
   snd (envconfig_Process w0 "" (envCfg (cmd s))) <> None) /\
  envCfg (cmd (post (Init w0 s))) = fst (envconfig_Process w0 "" (envCfg (cmd s))) /\
  cancel (cmd (post (Init w0 s))) = cancel (cmd s) /\
  logger (cmd (post (Init w0 s))) = logger (cmd s) /\
  metricsCollector (cmd (post (Init w0 s))) = metricsCollector (cmd s) /\
  opts (cmd (post (Init w0 s))) = opts (cmd s) /\
  emitted (Init w0 s) = [] /\
  ((forall e, behave w e = Returns) ->
   res (Start w (post (Init w0 s))) = Val (wrapServe (serveErr w)) /\
   count is_serve (emitted (Start w (post (Init w0 s)))) = 1 /\
   In (ev_NewHTTPMessageReceiver
         (Port (fst (envconfig_Process w0 "" (envCfg (cmd s))))))
      (emitted (Start w (post (Init w0 s))))).
Proof.
  assert (Hcfg : envCfg (cmd (post (Init w0 s))) =
                 fst (envconfig_Process w0 "" (envCfg (cmd s)))).
  { unfold Init. destruct (envconfig_Process w0 "" (envCfg (cmd s))) as [cfg' [e' | ]];
      reflexivity. }
  repeat match goal with |- _ /\ _ => split end.
  10: { intros Hret.
        pose proof (Start_returns_when_calls_return w (post (Init w0 s)) Hret)
          as (Hres & Hcount & Hrcv).
        unfold receiverEvent in Hrcv. rewrite Hcfg in Hrcv.
        split; [exact Hres | split; [exact Hcount | exact Hrcv]]. }
  all: unfold Init, returns_error;
    destruct (envconfig_Process w0 "" (envCfg (cmd s))) as [cfg' [e' | ]]; cbn;
    try reflexivity; try discriminate.
  - intros e He. injection He as ->. reflexivity.
  - split; [intros _; discriminate | reflexivity].
  - split; [discriminate | intros Hn; exfalso; apply Hn; reflexivity].
Qed.

Lemma Init_surfaces_loader_verdict_witness :
  res (Start (calm None) (post (Init (portLoader 0) (fresh c0)))) =
  Val (wrapServe (serveErr (calm None))) /\
  count is_serve (emitted (Start (calm None) (post (Init (portLoader 0) (fresh c0))))) = 1 /\
  In (ev_NewHTTPMessageReceiver
        (Port (fst (envconfig_Process (portLoader 0) "" (envCfg (cmd (fresh c0)))))))
     (emitted (Start (calm None) (post (Init (portLoader 0) (fresh c0))))).
Proof.
  apply (Init_surfaces_loader_verdict (portLoader 0) (calm None) (fresh c0)).
  intros e. reflexivity.
Defined.

(** C7, as stated, fails: [Init] rejects the environment, and the commander
    still goes on to [Start] when asked: it serves and returns nil. *)
Lemma Start_proceeds_after_failed_Init :
  res (Init (portLoader 0) (fresh c0)) =
  Val (Some "failed to read configuration for beb-commander : envconfig.Process: assigning INGRESS_PORT") /\
  res (Start (calm None) (post (Init (portLoader 0) (fresh c0)))) = Val None /\
  existsb is_serve (emitted (Start (calm None) (post (Init (portLoader 0) (fresh c0))))) = true.
Proof. repeat split; vm_compute; reflexivity. Qed.

(** ** Concrete runs *)

Example Init_rejects_port_0 :
  res (Init (portLoader 0) (fresh c0)) =
  Val (Some "failed to read configuration for beb-commander : envconfig.Process: assigning INGRESS_PORT")
  /\ envCfg (cmd (post (Init (portLoader 0) (fresh c0)))) = zeroConfig.
Proof. split; reflexivity. Qed.

Example Init_accepts_port_8080 :
  res (Init (portLoader 8080) (fresh c0)) = Val None /\
  Port (envCfg (cmd (post (Init (portLoader 8080) (fresh c0))))) = 8080%Z.
Proof. split; reflexivity. Qed.

Example Start_calm_returns_nil :
  res (Start (calm None) (fresh c0)) = Val None /\
  count is_close (emitted (Start (calm None) (fresh c0))) = 1 /\
  List.length (emitted (Start (calm None) (fresh c0))) = 26.
Proof. repeat split; vm_compute; reflexivity. Qed.

Example Stop_running_closes_the_context :
  emitted (Stop running) = [ev_ctx_done 0] /\
  cancelled (post (Stop running)) = [0].
Proof. split; reflexivity. Qed.

Lemma Start_serves_only_after_cache_sync_witness :
  existsb uses_processor (emitted (Start unsynced (fresh c0))) = false /\
  returns_error (Start unsynced (fresh c0)) = false.
Proof.
  destruct (proj2 (Start_serves_only_after_cache_sync unsynced (fresh c0)))
    as (Hunused & Hnoerr & _).
  - vm_compute. discriminate.
  - split; assumption.
Defined.

Lemma CloseIdleConnections_at_most_once_witness :
  count is_close (emitted (Start (calm (Some "bind")) (fresh c0))) = 1.
Proof.
  apply (proj1 (proj2 (CloseIdleConnections_at_most_once
                         (calm (Some "bind")) (fresh c0)))
           (Some "failed to start handler for beb-commander : bind")).
  reflexivity.
Defined.

Lemma Start_runs_without_Init_witness :
  In (ev_NewHTTPMessageReceiver 0) (emitted (Start serving (fresh c0))) /\
  In (ev_oauth_NewClient (CancelContext 0 SignalContext) zeroConfig)
     (emitted (Start serving (fresh c0))) /\
  cancel (cmd (post (Start serving (fresh c0)))) = Some (CancelOf 0).
Proof.
  apply (proj1 (proj2 (Start_runs_without_Init serving (Some 1) (Some 2) (Some 3)))).
  repeat split.
Defined.

(** * Further properties *)

(** ** Wiring *)

(** Along every path of [Start], a call that takes a context takes the
    lifecycle context, and by then the cancel func is stored. *)
Lemma Start_ctx_cases (w : World) (s : State) :
  forall e, In e (emitted (Start w s)) ->
  forall c, ctx_arg e = Some c ->
  c = lifecycleCtx s /\
  cancel (cmd (post (Start w s))) = Some (CancelOf (nextCtx s)).
Proof.
  remember (Start w s) as r eqn:Hr. unfold_run Hr.
  explore Hr ltac:(
    subst r; unfold lifecycleCtx; cbn; intros ev Hev;
    each_event Hev ltac:(
      cbn; intros cx Hcx;
      first [discriminate Hcx | injection Hcx as <-; split; reflexivity])).
Qed.

(** Along every path of [Start], the handler of a handler call is wired
    from the state [Start] began in. *)
Lemma Start_handler_wired (w : World) (s : State) :
  forall e, In e (emitted (Start w s)) ->
  forall h, handler_arg e = Some h -> wired s h.
Proof.
  remember (Start w s) as r eqn:Hr. unfold_run Hr.
  explore Hr ltac:(
    subst r; cbn; intros ev Hev;
    each_event Hev ltac:(
      cbn; intros hx Hhx;
      first [ discriminate Hhx
            | injection Hhx as <-;
              unfold wired, builtLister, lifecycleCtx; cbn; use_flag;
              repeat split ])).
Qed.

(** The serve call is made on the handler [handler.New] was called for. *)
Lemma Start_serves_built_handler (w : World) (s : State) :
  forall h c, In (ev_handler_Start h c) (emitted (Start w s)) ->
  In (ev_handler_New h) (emitted (Start w s)).
Proof.
  remember (Start w s) as r eqn:Hr. unfold_run Hr.
  explore Hr ltac:(
    subst r; cbn; intros hx cx Hin;
    repeat (destruct Hin as [Hin' | Hin];
            [ first [ discriminate Hin'
                    | injection Hin' as <- <-;
                      repeat (first [left; reflexivity | right]) ]
            | ]);
    destruct Hin).
Qed.

(** X2. The handler [Start] serves is the one it built, it is served on the
    lifecycle context, and it is wired from the commander: receiver port,
    publish URL, OAuth client, request timeout, namespace and prefix come
    from the config object, options, logger and collector from the
    commander, and transformer, cleaner and builder hold the same
    application lister (nil exactly when the flag is off). *)
Theorem served_handler_is_wired_from_config (w : World) (s : State)
    (h : Handler) (c : Context) :
  In (ev_handler_Start h c) (emitted (Start w s)) ->
  wired s h /\
  c = lifecycleCtx s /\
  cancel (cmd (post (Start w s))) = Some (CancelOf (nextCtx s)) /\
  In (ev_handler_New h) (emitted (Start w s)).
Proof.
  intros Hin. split; [ | split; [ | split]].
  - exact (Start_handler_wired w s _ Hin h eq_refl).
  - exact (proj1 (Start_ctx_cases w s _ Hin c eq_refl)).
  - exact (proj2 (Start_ctx_cases w s _ Hin c eq_refl)).
  - exact (Start_serves_built_handler w s h c Hin).
Qed.

(** X1. Every call of [Start] that takes a context (the OAuth client, the
    application lister, the cache-sync wait and the handler's serve call)
    receives the one lifecycle context of line 74, a child of the signal
    context, and the cancel func stored in the commander is the one of that
    context. *)
Theorem context_calls_share_lifecycle_context (w : World) (s : State)
    (e : Event) (c : Context) :
  In e (emitted (Start w s)) ->
  ctx_arg e = Some c ->
  c = CancelContext (nextCtx s) SignalContext /\
  cancel (cmd (post (Start w s))) = Some (CancelOf (nextCtx s)).
Proof.
  intros Hin Hc. exact (Start_ctx_cases w s e Hin c Hc).
Qed.

(** ** Whole lifecycles *)

(** What [Init] leaves of the state: everything but the config object. *)
Lemma Init_state (w : World) (s : State) :
  nextCtx (post (Init w s)) = nextCtx s /\
  cancelled (post (Init w s)) = cancelled s /\
  cancel (cmd (post (Init w s))) = cancel (cmd s) /\
  opts (cmd (post (Init w s))) = opts (cmd s) /\
  metricsCollector (cmd (post (Init w s))) = metricsCollector (cmd s) /\
  logger (cmd (post (Init w s))) = logger (cmd s) /\
  envCfg (cmd (post (Init w s))) = fst (envconfig_Process w "" (envCfg (cmd s))).
Proof.
  unfold Init.
  destruct (envconfig_Process w "" (envCfg (cmd s))) as [cfg' [e' | ]];
    repeat split.
Qed.

(** [Stop] leaves the state alone or closes the stored func's context. *)
Lemma Stop_post (s : State) :
  post (Stop s) = s \/
  exists id, cancel (cmd s) = Some (CancelOf id) /\
             existsb (Nat.eqb id) (cancelled s) = false /\
             post (Stop s) = mkState (cmd s) (nextCtx s) (id :: cancelled s).
Proof.
  unfold Stop, bind, field, callCancel, ret, after.
  destruct (cancel (cmd s)) as [[id] | ] eqn:Hc; cbn; [ | left; reflexivity].
  destruct (existsb (Nat.eqb id) (cancelled s)) eqn:Hin; cbn.
  - left. reflexivity.
  - right. exists id. split; [reflexivity || exact Hc | split; [exact Hin | reflexivity]].
Qed.

Lemma existsb_eqb_false (id : nat) (l : list nat) :
  existsb (Nat.eqb id) l = false -> ~ In id l.
Proof.
  intros Hf Hin.
  assert (Ht : existsb (Nat.eqb id) l = true).
  { apply existsb_exists. exists id. split; [exact Hin | apply Nat.eqb_refl]. }
  rewrite Hf in Ht. discriminate Ht.
Qed.


(** The numbering invariants hold all along a lifecycle. *)
Lemma reachable_numbering (o : OptionsPtr) (m : CollectorPtr) (l : LoggerPtr)
    (s : State) :
  reachable o m l s -> well_numbered s /\ cancelled_bounded s.
Proof.
  induction 1 as [ | w s Hs [IHw IHc] | w s Hs [IHw IHc] | s Hs [IHw IHc]].
  - split; [intros id Hid; discriminate Hid | intros id []].
  - destruct (Init_state w s) as (Hn & Hc & Hf & _).
    unfold well_numbered, cancelled_bounded. rewrite Hn, Hc, Hf. split; assumption.
  - destruct (Start_post w s) as [-> | ->]; [split; assumption | ].
    split.
    + intros id Hid. cbn in Hid. injection Hid as <-. cbn. lia.
    + intros id Hid. cbn in *. apply IHc in Hid. lia.
  - destruct (Stop_post s) as [-> | (id & Hid & _ & ->)]; [split; assumption | ].
    split.
    + intros id' Hid'. cbn in *. apply IHw. exact Hid'.
    + intros id' [<- | Hin]; cbn.
      * apply IHw. exact Hid.
      * apply IHc. exact Hin.
Qed.

(** X7. Along every lifecycle (a commander from [NewCommander], then any
    sequence of [Init], [Start] and [Stop]) the options, collector and
    logger stay the ones given to [NewCommander], no context is closed
    twice, and the closed contexts and the stored cancel func belong to
    contexts already created. *)
Theorem lifecycle_invariant (o : OptionsPtr) (m : CollectorPtr) (l : LoggerPtr)
    (s : State) :
  reachable o m l s ->
  opts (cmd s) = o /\
  metricsCollector (cmd s) = m /\
  logger (cmd s) = l /\
  NoDup (cancelled s) /\
  (forall id, In id (cancelled s) -> id < nextCtx s) /\
  (forall id, cancel (cmd s) = Some (CancelOf id) -> id < nextCtx s).
Proof.
  intros Hr.
  destruct (reachable_numbering o m l s Hr) as [Hw Hc].
  repeat split; try assumption; clear Hw Hc.
  1-4: induction Hr as [ | w s Hs IH | w s Hs IH | s Hs IH].
  all: try reflexivity.
  all: try (destruct (Init_state w s) as (Hn & Hc & Hf & Ho & Hm & Hl & _); congruence).
  all: try (destruct (keeps_Start w s) as (_ & Hl & Hm & Ho); congruence).
  all: try (rewrite Stop_cmd; exact IH).
  - constructor.
  - destruct (Start_post w s) as [-> | ->]; exact IH.
  - destruct (Stop_post s) as [-> | (id & _ & Hnew & ->)]; [exact IH | ].
    cbn. constructor; [apply existsb_eqb_false; exact Hnew | exact IH].
Qed.

Lemma lifecycle_invariant_witness :
  opts (cmd (post (Stop (post (Start serving (post (Init (portLoader 8080) (fresh c0)))))))) = Some 1 /\
  metricsCollector (cmd (post (Stop (post (Start serving (post (Init (portLoader 8080) (fresh c0)))))))) = Some 2 /\
  logger (cmd (post (Stop (post (Start serving (post (Init (portLoader 8080) (fresh c0)))))))) = Some 3 /\
  NoDup (cancelled (post (Stop (post (Start serving (post (Init (portLoader 8080) (fresh c0)))))))) /\
  (forall id, In id (cancelled (post (Stop (post (Start serving (post (Init (portLoader 8080) (fresh c0)))))))) ->
     id < nextCtx (post (Stop (post (Start serving (post (Init (portLoader 8080) (fresh c0)))))))) /\
  (forall id, cancel (cmd (post (Stop (post (Start serving (post (Init (portLoader 8080) (fresh c0)))))))) = Some (CancelOf id) ->
     id < nextCtx (post (Stop (post (Start serving (post (Init (portLoader 8080) (fresh c0)))))))).
Proof.
  apply (lifecycle_invariant (Some 1) (Some 2) (Some 3)).
  apply reach_Stop, reach_Start, reach_Init, reach_new.
Defined.



(** ** More on [Start] *)

(** No path of [Start] closes a context. *)
Lemma Start_emits_no_done (w : World) (s : State) :
  existsb is_done (emitted (Start w s)) = false.
Proof.
  remember (Start w s) as r eqn:Hr. unfold_run Hr.
  explore Hr ltac:(subst r; reflexivity).
Qed.

(** X4. [Start] itself never calls a cancel func: in every run, whether it
    returns nil, returns the serve error, panics or dies, the contexts
    closed through cancel funcs are the ones closed before and no cancel
    func takes effect. *)
Theorem Start_cancels_no_context (w : World) (s : State) :
  cancelled (post (Start w s)) = cancelled s /\
  existsb is_done (emitted (Start w s)) = false.
Proof.
  split; [ | apply Start_emits_no_done].
  destruct (Start_post w s) as [-> | ->]; reflexivity.
Qed.

(** Along every path of [Start] with the flag on, a constructor that takes
    the lister takes the one built before it. *)
Lemma Start_enabled_cases (w : World) (s : State) :
  ApplicationCRDEnabled (envCfg (cmd s)) = true ->
  forall e, In e (emitted (Start w s)) ->
  takes_lister e = true ->
  lister_arg e = Some (builtLister s) /\
  (In (ev_NewForConfigOrDie ClusterConfig) (emitted (Start w s)) /\
   behave w (ev_NewForConfigOrDie ClusterConfig) = Returns) /\
  (In (ev_application_NewLister (lifecycleCtx s) (mkDynamicClient ClusterConfig))
      (emitted (Start w s)) /\
   behave w (ev_application_NewLister (lifecycleCtx s)
                                      (mkDynamicClient ClusterConfig)) = Returns).
Proof.
  intros Hflag.
  remember (Start w s) as r eqn:Hr. unfold_run Hr.
  explore Hr ltac:(
    subst r; unfold builtLister, lifecycleCtx; cbn; intros ev Hev;
    each_event Hev ltac:(
      cbn; intros Htakes;
      first
        [ discriminate Htakes
        | split; [reflexivity | ];
          repeat split;
          first [ assumption | repeat (first [left; reflexivity | right]) ] ])).
Qed.

(** X6. Whenever [Start] closes the idle connections, that is the last call
    it makes, and the client it closes is the one line 77 built. *)
Theorem CloseIdleConnections_is_last (w : World) (s : State) :
  existsb is_close (emitted (Start w s)) = true ->
  hd_error (rev (emitted (Start w s))) = Some (closeEvent s) /\
  In (clientEvent s) (emitted (Start w s)) /\
  behave w (clientEvent s) = Returns.
Proof.
  remember (Start w s) as r eqn:Hr. unfold_run Hr.
  explore Hr ltac:(
    subst r; unfold closeEvent, clientEvent, lifecycleCtx; cbn; intros Hcl;
    first
      [ discriminate Hcl
      | split; [reflexivity | split; [ | assumption]];
        repeat (first [left; reflexivity | right]) ]).
Qed.

Lemma CloseIdleConnections_is_last_witness :
  hd_error (rev (emitted (Start (calm None) (fresh c0)))) =
  Some (closeEvent (fresh c0)) /\
  In (clientEvent (fresh c0)) (emitted (Start (calm None) (fresh c0))) /\
  behave (calm None) (clientEvent (fresh c0)) = Returns.
Proof.
  apply (CloseIdleConnections_is_last (calm None) (fresh c0)). reflexivity.
Defined.

(** When [x0] is the only [g] event a gated trace can hold, it comes before
    every [p] event. *)
Lemma gated_by_unique (g p : Event -> bool) (t : list Event) (x0 : Event) :
  gated_by g p false t = true ->
  filter g t = [] \/ filter g t = [x0] ->
  forall pre e post, t = (pre ++ e :: post)%list -> p e = true -> In x0 pre.
Proof.
  intros Hgate Honly pre e post Heq Hp.
  destruct (gated_by_sound g p t false Hgate pre e post Heq Hp)
    as [Hseen | (x & Hin & Hx)]; [discriminate Hseen | ].
  assert (Hfil : In x (filter g t)).
  { apply filter_In. split; [ | exact Hx].
    rewrite Heq. apply in_or_app. left. exact Hin. }
  destruct Honly as [Hnone | Hone].
  - rewrite Hnone in Hfil. destruct Hfil.
  - rewrite Hone in Hfil. destruct Hfil as [<- | []]. exact Hin.
Qed.

(** Along every path of [Start], the constructors that take the lister come
    after the one call that builds the dynamic client and the one call that
    builds the lister. *)
Lemma Start_lister_order (w : World) (s : State) :
  ApplicationCRDEnabled (envCfg (cmd s)) = true ->
  gated_by is_NewForConfigOrDie takes_lister false (emitted (Start w s)) = true /\
  (filter is_NewForConfigOrDie (emitted (Start w s)) = [] \/
   filter is_NewForConfigOrDie (emitted (Start w s)) =
     [ev_NewForConfigOrDie ClusterConfig]) /\
  gated_by is_NewLister takes_lister false (emitted (Start w s)) = true /\
  (filter is_NewLister (emitted (Start w s)) = [] \/
   filter is_NewLister (emitted (Start w s)) =
     [ev_application_NewLister (lifecycleCtx s) (mkDynamicClient ClusterConfig)]).
Proof.
  intros Hflag. unfold lifecycleCtx.
  remember (Start w s) as r eqn:Hr. unfold_run Hr.
  explore Hr ltac:(
    subst r; cbn;
    split; [reflexivity | split; [ | split; [reflexivity | ]]];
    first [left; reflexivity | right; reflexivity]).
Qed.

(** X5. With the Application-CRD flag on, every constructor that takes the
    application lister (transformer, cleaner, builder) receives the one
    lister of lines 89-90, built on the lifecycle context from the dynamic
    client; the calls that build the dynamic client and the lister come
    before it in the run, and both have returned. *)
Theorem enabled_flag_shares_one_lister (w : World) (s : State)
    (pre : list Event) (e : Event) (post : list Event) :
  ApplicationCRDEnabled (envCfg (cmd s)) = true ->
  emitted (Start w s) = (pre ++ e :: post)%list ->
  takes_lister e = true ->
  lister_arg e = Some (builtLister s) /\
  (In (ev_NewForConfigOrDie ClusterConfig) pre /\
   behave w (ev_NewForConfigOrDie ClusterConfig) = Returns) /\
  (In (ev_application_NewLister (lifecycleCtx s) (mkDynamicClient ClusterConfig)) pre /\
   behave w (ev_application_NewLister (lifecycleCtx s)
                                      (mkDynamicClient ClusterConfig)) = Returns).
Proof.
  intros Hflag Heq Htakes.
  assert (Hin : In e (emitted (Start w s))).
  { rewrite Heq. apply in_or_app. right. left. reflexivity. }
  destruct (Start_enabled_cases w s Hflag e Hin Htakes)
    as (Harg & (_ & Hdyn) & (_ & Hlst)).
  destruct (Start_lister_order w s Hflag) as (Hg1 & Ho1 & Hg2 & Ho2).
  split; [exact Harg | split; split].
  - exact (gated_by_unique _ _ _ _ Hg1 Ho1 pre e post Heq Htakes).
  - exact Hdyn.
  - exact (gated_by_unique _ _ _ _ Hg2 Ho2 pre e post Heq Htakes).
  - exact Hlst.
Qed.

(** ** The order of the calls *)


(** ** Concrete wirings *)

Lemma context_calls_share_lifecycle_context_witness :
  lifecycleCtx (fresh c0) = CancelContext (nextCtx (fresh c0)) SignalContext /\
  cancel (cmd (post (Start syncing (fresh c0)))) =
  Some (CancelOf (nextCtx (fresh c0))).
Proof.
  apply (context_calls_share_lifecycle_context syncing (fresh c0)
           (waitEvent (fresh c0)) (lifecycleCtx (fresh c0))).
  - vm_compute. repeat (first [left; reflexivity | right]).
  - reflexivity.
Defined.

Lemma served_handler_is_wired_from_config_witness :
  wired loaded loadedHandler /\
  CancelContext 0 SignalContext = lifecycleCtx loaded /\
  cancel (cmd (post (Start serving loaded))) = Some (CancelOf (nextCtx loaded)) /\
  In (ev_handler_New loadedHandler) (emitted (Start serving loaded)).
Proof.
  apply (served_handler_is_wired_from_config serving loaded loadedHandler
           (CancelContext 0 SignalContext)).
  vm_compute. repeat (first [left; reflexivity | right]).
Defined.

Lemma enabled_flag_shares_one_lister_witness :
  lister_arg (transformerEvent crdLoaded (Some (builtLister crdLoaded))) =
  Some (builtLister crdLoaded) /\
  (In (ev_NewForConfigOrDie ClusterConfig)
      (firstn 11 (emitted (Start (calm None) crdLoaded))) /\
   behave (calm None) (ev_NewForConfigOrDie ClusterConfig) = Returns) /\
  (In (ev_application_NewLister (lifecycleCtx crdLoaded) (mkDynamicClient ClusterConfig))
      (firstn 11 (emitted (Start (calm None) crdLoaded))) /\
   behave (calm None) (ev_application_NewLister (lifecycleCtx crdLoaded)
                                                (mkDynamicClient ClusterConfig)) = Returns).
Proof.
  apply (enabled_flag_shares_one_lister (calm None) crdLoaded
           (firstn 11 (emitted (Start (calm None) crdLoaded)))
           (transformerEvent crdLoaded (Some (builtLister crdLoaded)))
           (skipn 12 (emitted (Start (calm None) crdLoaded)))).
  - reflexivity.
  - vm_compute. reflexivity.
  - reflexivity.
Defined.

(** ** [Init] then [Start] *)

(** X9. [Start] after [Init] serves a handler built from the config object as
    the loader left it, whether [Init] returned nil or an error, and from
    the options, logger and collector of the commander. *)
Theorem Start_uses_what_Init_loaded (w0 w : World) (s0 : State)
    (h : Handler) (c : Context) :
  In (ev_handler_Start h c) (emitted (Start w (post (Init w0 s0)))) ->
  rcv_port (h_receiver h) = Port (fst (envconfig_Process w0 "" (envCfg (cmd s0)))) /\
  snd_url (h_sender h) =
    EventMeshPublishURL (fst (envconfig_Process w0 "" (envCfg (cmd s0)))) /\
  h_timeout h = RequestTimeout (fst (envconfig_Process w0 "" (envCfg (cmd s0)))) /\
  h_prefix h = EventTypePrefix (fst (envconfig_Process w0 "" (envCfg (cmd s0)))) /\
  Namespace (h_processor h) =
    EventMeshNamespace (fst (envconfig_Process w0 "" (envCfg (cmd s0)))) /\
  (ApplicationCRDEnabled (fst (envconfig_Process w0 "" (envCfg (cmd s0)))) = false ->
   bld_lister (h_builder h) = None) /\
  h_opts h = opts (cmd s0) /\
  h_logger h = logger (cmd s0) /\
  h_collector h = metricsCollector (cmd s0).
Proof.
  intros Hin.
  pose proof (Start_handler_wired w _ _ Hin h eq_refl) as Hw.
  destruct (Init_state w0 s0) as (_ & _ & _ & Ho & Hm & Hl & Hcfg).
  unfold wired in Hw. cbv zeta in Hw. rewrite Hcfg, Ho, Hm, Hl in Hw.
  destruct Hw as (H1 & H2 & _ & H4 & _ & _ & _ & H8 & _ & _ & _ & H12 & H13
                  & H14 & H15 & _ & _ & H18).
  repeat split; try assumption.
  intros Hoff. rewrite Hoff in H18. exact H18.
Qed.

Lemma Start_uses_what_Init_loaded_witness :
  rcv_port (h_receiver loadedHandler) =
    Port (fst (envconfig_Process (portLoader 8080) "" (envCfg (cmd (fresh c0))))) /\
  snd_url (h_sender loadedHandler) =
    EventMeshPublishURL (fst (envconfig_Process (portLoader 8080) "" (envCfg (cmd (fresh c0))))) /\
  h_timeout loadedHandler =
    RequestTimeout (fst (envconfig_Process (portLoader 8080) "" (envCfg (cmd (fresh c0))))) /\
  h_prefix loadedHandler =
    EventTypePrefix (fst (envconfig_Process (portLoader 8080) "" (envCfg (cmd (fresh c0))))) /\
  Namespace (h_processor loadedHandler) =
    EventMeshNamespace (fst (envconfig_Process (portLoader 8080) "" (envCfg (cmd (fresh c0))))) /\
  (ApplicationCRDEnabled (fst (envconfig_Process (portLoader 8080) "" (envCfg (cmd (fresh c0))))) = false ->
   bld_lister (h_builder loadedHandler) = None) /\
  h_opts loadedHandler = opts (cmd (fresh c0)) /\
  h_logger loadedHandler = logger (cmd (fresh c0)) /\
  h_collector loadedHandler = metricsCollector (cmd (fresh c0)).
Proof.
  apply (Start_uses_what_Init_loaded (portLoader 8080) (calm None) (fresh c0)
           loadedHandler (CancelContext 0 SignalContext)).
  vm_compute. repeat (first [left; reflexivity | right]).
Defined.

(** ** [Stop] along a lifecycle *)

(** Along a lifecycle the cancel func is nil exactly while no context was
    created. *)
Lemma reachable_cancel_nil (o : OptionsPtr) (m : CollectorPtr) (l : LoggerPtr)
    (s : State) :
  reachable o m l s -> (cancel (cmd s) = None <-> nextCtx s = 0).
Proof.
  induction 1 as [ | w s Hs IH | w s Hs IH | s Hs IH].
  - split; reflexivity.
  - destruct (Init_state w s) as (Hn & _ & Hf & _). rewrite Hn, Hf. exact IH.
  - destruct (Start_post w s) as [-> | ->]; [exact IH | ].
    cbn. split; intro Habs; discriminate Habs.
  - destruct (Stop_post s) as [-> | (id & _ & _ & ->)]; exact IH.
Qed.

(** X10. Along a lifecycle, [Stop] panics exactly as long as no [Start] has
    created a lifecycle context, returns nil ever after, and never returns an
    error: the stored cancel func is never reset. *)
Theorem Stop_panics_only_before_first_context (o : OptionsPtr) (m : CollectorPtr)
    (l : LoggerPtr) (s : State) :
  reachable o m l s ->
  (nextCtx s = 0 -> res (Stop s) = Panic) /\
  (nextCtx s <> 0 -> res (Stop s) = Val None) /\
  returns_error (Stop s) = false.
Proof.
  intros Hr. pose proof (reachable_cancel_nil o m l s Hr) as [Hnil Hzero].
  unfold returns_error, Stop, bind, field, callCancel, ret, after.
  destruct (cancel (cmd s)) as [[id] | ]; cbn.
  - destruct (existsb (Nat.eqb id) (cancelled s)); cbn;
      (split; [intros Hz; apply Hzero in Hz; discriminate Hz | split; reflexivity]).
  - split; [reflexivity | split; [ | reflexivity]].
    intros Hnz. exfalso. apply Hnz. apply Hnil. reflexivity.
Qed.

Lemma Stop_panics_only_before_first_context_witness :
  (nextCtx (post (Init (portLoader 0) (post (Stop running)))) = 0 ->
   res (Stop (post (Init (portLoader 0) (post (Stop running))))) = Panic) /\
  (nextCtx (post (Init (portLoader 0) (post (Stop running)))) <> 0 ->
   res (Stop (post (Init (portLoader 0) (post (Stop running))))) = Val None) /\
  returns_error (Stop (post (Init (portLoader 0) (post (Stop running))))) = false.
Proof.
  apply (Stop_panics_only_before_first_context (Some 1) (Some 2) (Some 3)).
  apply reach_Init, reach_Stop. unfold running. apply reach_Start, reach_new.
Defined.
